(** * Wide residual network: the graph that [models/wide-resnet.py] builds

    The Python class [WideRes22] builds a static computation graph by calling
    a tensor framework.  This development embeds the constructor
    [WideRes22.__init__] and the method [WideRes22.res_group] as programs of
    a small state-and-exception monad and proves properties of the graph they
    build.

    Modelling boundary.  A framework call is recorded symbolically: the node
    it creates is a constructor of [tensor] that holds the arguments the
    source passes, in the order of the source.  What the framework computes
    inside a call (convolution arithmetic, its variable store and the checks
    it makes on variable names, full shape inference) is outside the
    embedding.  Three pieces of framework bookkeeping that the source reads
    back are modelled, each next to its definition: the collection of
    trainable variables ([tf.trainable_variables]), the static channel count
    of a tensor ([np.shape(t)[-1]]) and the active name scope. *)

From Stdlib Require Import List ZArith QArith Qcanon Bool String Lia.
From Stdlib Require DecimalString.
Import ListNotations.
Local Open Scope string_scope.
Local Open Scope list_scope.
Local Open Scope Z_scope.
Set Warnings "-register-all".

(** ** Data model *)

(** The name scopes the source opens with [with tf.name_scope(...)].  A scope
    is kept structured; [scope_name] renders the string the source passes. *)
Inductive scope : Type :=
| Root                                        (* no enclosing name scope *)
| Conv0                                       (* "conv_0" *)
| BlockConv (group_id block k : Z)            (* "%s-%s_conv_k" % (group_id, block_num + 1) *)
| LossScope                                   (* "loss" *)
| AccuracyScope.                              (* "accuracy" *)

Definition str (n : Z) : string :=
  DecimalString.NilZero.string_of_int (Z.to_int n).

Definition scope_name (s : scope) : string :=
  match s with
  | Root => EmptyString
  | Conv0 => "conv_0"
  | BlockConv g b k => (str g ++ "-" ++ str b ++ "_conv_" ++ str k)%string
  | LossScope => "loss"
  | AccuracyScope => "accuracy"
  end.

Inductive dtype : Type := float32 | bool_.

Inductive initializer : Type :=
| truncated_normal_initializer (stddev : Q).

(** A node of the graph, with the arguments of the call that creates it.
    Float literals of the source are exact rationals ([0.9] is [9 # 10]). *)
Inductive tensor : Type :=
| Placeholder (dt : dtype) (shape : option (list (option Z))) (name : string)
| Var (sc : scope) (name : string) (shape : list Z) (init : initializer)
| LayerVar (layer : tensor) (role : string)
| Conv2d (input filter : tensor) (strides : list Z) (padding name : string)
| BatchNorm (inputs : tensor) (decay : Q) (center scale : bool)
            (is_training : tensor) (zero_debias_moving_mean : bool)
| Relu (features : tensor) (name : string)
| Add (x y : tensor)
| AvgPool2d (incoming : tensor) (kernel_size : Z) (strides : list Z)
            (padding name : string)
| Flatten (inputs : tensor)
| Dense (inputs : tensor) (use_bias : bool) (units : Z) (name : string)
| ArgMax (input : tensor) (axis : Z) (name : option string)
| L2Loss (t : tensor)
| AddN (inputs : list tensor)
| SoftmaxCrossEntropyWithLogits (logits labels : tensor)
| ReduceMean (input : tensor) (name : option string)
| Const (value : Q)
| Mul (x y : tensor)
| Equal (x y : tensor)
| Cast (x : tensor) (dt : string).

(** The trainable variables that creating a node registers: [tf.get_variable]
    registers the variable itself, [batch_norm] its offset and scale when
    [center] and [scale] are set, [tf.layers.dense] its kernel and its bias
    when [use_bias] is set. *)
Definition new_trainable (t : tensor) : list tensor :=
  match t with
  | Var _ _ _ _ => [t]
  | BatchNorm _ _ center scale _ _ =>
      (if center then [LayerVar t "beta"] else []) ++
      (if scale then [LayerVar t "gamma"] else [])
  | Dense _ use_bias _ _ =>
      LayerVar t "kernel" :: (if use_bias then [LayerVar t "bias"] else [])
  | _ => []
  end.

(** Broadcasting of one dimension, as elementwise addition does it. *)
Definition broadcast_dim (a b : option Z) : option Z :=
  match a, b with
  | Some x, Some y =>
      if x =? y then Some x
      else if x =? 1 then Some y
      else if y =? 1 then Some x
      else None
  | _, _ => None
  end.

(** The static size of the last dimension of a tensor on the forward path
    ([None]: not known). *)
Fixpoint last_dim (t : tensor) : option Z :=
  match t with
  | Placeholder _ (Some shape) _ => last shape None
  | Var _ _ shape _ => last (map Some shape) None
  | Conv2d _ filter _ _ _ => last_dim filter
  | BatchNorm x _ _ _ _ _ => last_dim x
  | Relu x _ => last_dim x
  | Add x y => broadcast_dim (last_dim x) (last_dim y)
  | AvgPool2d x _ _ _ _ => last_dim x
  | Dense _ _ units _ => Some units
  | _ => None
  end.

(** ** State and monad *)

Record state : Type := mkState {
  nodes : list (scope * tensor);   (* the graph, in creation order *)
  trainable : list tensor;         (* collection of trainable variables *)
  name_scope : scope;              (* active name scope *)
  stdout : list string             (* lines printed so far *)
}.

Inductive exn : Type := IndexError | TypeError.

Inductive result (A : Type) : Type :=
| Ok (a : A)
| Raise (e : exn).
Arguments Ok {A} a.
Arguments Raise {A} e.

Definition M (A : Type) : Type := state -> result A * state.

Definition ret {A} (a : A) : M A := fun s => (Ok a, s).

Definition bind {A B} (m : M A) (f : A -> M B) : M B :=
  fun s => match m s with
           | (Ok a, s') => f a s'
           | (Raise e, s') => (Raise e, s')
           end.

Definition raise {A} (e : exn) : M A := fun s => (Raise e, s).

Notation "x <- m ;; k" := (bind m (fun x => k))
  (at level 61, m at next level, right associativity).
Notation "m ;; k" := (bind m (fun _ => k))
  (at level 61, right associativity).

(** [print(line)] *)
Definition print (line : string) : M unit :=
  fun s => (Ok tt, mkState (nodes s) (trainable s) (name_scope s)
                           (stdout s ++ [line])).

(** Every framework call that creates a node goes through [emit]: the node is
    appended under the active name scope and its trainable variables are
    registered. *)
Definition emit (t : tensor) : M tensor :=
  fun s => (Ok t, mkState (nodes s ++ [(name_scope s, t)])
                          (trainable s ++ new_trainable t)
                          (name_scope s) (stdout s)).

(** [with tf.name_scope(sc): body]; the scope is restored on exit, also when
    the body raises. *)
Definition with_name_scope {A} (sc : scope) (body : M A) : M A :=
  fun s =>
    let (r, s') := body (mkState (nodes s) (trainable s) sc (stdout s)) in
    (r, mkState (nodes s') (trainable s') (name_scope s) (stdout s')).

(** The state after the entries [ns] were created. *)
Definition extend (st : state) (ns : list (scope * tensor)) : state :=
  mkState (nodes st ++ ns)
          (trainable st ++ flat_map new_trainable (map snd ns))
          (name_scope st) (stdout st).

(** The state after the lines [ls] were printed. *)
Definition say (st : state) (ls : list string) : state :=
  mkState (nodes st) (trainable st) (name_scope st) (stdout st ++ ls).

(** [t[i]] on a tuple *)
Definition getitem (t : list Z) (i : nat) : M Z :=
  match nth_error t i with
  | Some v => ret v
  | None => raise IndexError
  end.

(** [int(np.shape(t)[-1])] *)
Definition np_shape_last (t : tensor) : M Z :=
  match last_dim t with
  | Some d => ret d
  | None => raise TypeError
  end.

(** [range(n)] *)
Definition range (n : Z) : list Z := map Z.of_nat (seq 0 (Z.to_nat n)).

(** ** The framework calls of the source *)

Definition placeholder dt shape name : M tensor := emit (Placeholder dt shape name).

(** [tf.get_variable]: the variable is recorded with the name scope active
    at the call, which tells apart the requests the source makes under the
    one name "weight". *)
Definition get_variable shape init name : M tensor :=
  fun s => emit (Var (name_scope s) name shape init) s.

Definition conv2d input filter strides padding name : M tensor :=
  emit (Conv2d input filter strides padding name).

Definition batch_norm inputs decay center scale is_training zero_debias : M tensor :=
  emit (BatchNorm inputs decay center scale is_training zero_debias).

Definition relu features name : M tensor := emit (Relu features name).
Definition add x y : M tensor := emit (Add x y).
Definition avg_pool_2d incoming kernel_size strides padding name : M tensor :=
  emit (AvgPool2d incoming kernel_size strides padding name).
Definition flatten inputs : M tensor := emit (Flatten inputs).
Definition dense inputs use_bias units name : M tensor :=
  emit (Dense inputs use_bias units name).
Definition argmax input axis name : M tensor := emit (ArgMax input axis name).
Definition l2_loss t : M tensor := emit (L2Loss t).
Definition add_n inputs : M tensor := emit (AddN inputs).
Definition softmax_cross_entropy_with_logits logits labels : M tensor :=
  emit (SoftmaxCrossEntropyWithLogits logits labels).
Definition reduce_mean input name : M tensor := emit (ReduceMean input name).
Definition equal x y : M tensor := emit (Equal x y).
Definition cast x dt : M tensor := emit (Cast x dt).

(** [c * t] for a Python float [c] and a tensor [t]: the float becomes a
    constant node, then the product node. *)
Definition scalar_mul (c : Q) (t : tensor) : M tensor :=
  k <- emit (Const c) ;; emit (Mul k t).

(** [tf.trainable_variables()] *)
Definition trainable_variables : M (list tensor) :=
  fun s => (Ok (trainable s), s).

(** [[f(x) for x in xs]] *)
Fixpoint for_each {A B} (f : A -> M B) (xs : list A) : M (list B) :=
  match xs with
  | [] => ret []
  | x :: xs' => y <- f x ;; ys <- for_each f xs' ;; ret (y :: ys)
  end.

(** ** [WideRes22] *)

Record WideRes22 : Type := mkWideRes22 {
  input_x : tensor;
  input_y : tensor;
  train_flag : tensor;
  out : tensor;
  scores : tensor;
  predictions : tensor;
  loss : tensor;
  accuracy : tensor
}.

Definition tn01 : initializer := truncated_normal_initializer (1 # 10).

(** The body of the [for] loop of [res_group]: one residual block.  It reads
    the loop-carried [shortcut] and [stride] and returns their new values. *)
Definition res_block (self_train_flag : tensor) (out_channels group_id : Z)
    (block_num : Z) (shortcut : tensor) (stride : Z) : M (tensor * Z) :=
  in_dim <- np_shape_last shortcut ;;
  c1 <- with_name_scope (BlockConv group_id (block_num + 1) 1) (
    bn <- batch_norm shortcut (9 # 10) true true self_train_flag true ;;
    out_1 <- relu bn "relu" ;;
    let kernel_shape := [3; 3; in_dim; out_channels] in
    W <- get_variable kernel_shape tn01 "weight" ;;
    conv_1 <- conv2d out_1 W [1; stride; stride; 1] "SAME" "conv" ;;
    ret (out_1, conv_1)) ;;
  let (out_1, conv_1) := c1 : tensor * tensor in
  conv_2 <- with_name_scope (BlockConv group_id (block_num + 1) 2) (
    bn <- batch_norm conv_1 (9 # 10) true true self_train_flag true ;;
    out_2 <- relu bn "relu" ;;
    let kernel_shape := [3; 3; out_channels; out_channels] in
    W <- get_variable kernel_shape tn01 "weight" ;;
    conv2d out_2 W [1; 1; 1; 1] "SAME" "conv") ;;
  if block_num =? 0 then
    shortcut' <- with_name_scope (BlockConv group_id (block_num + 1) 3) (
      let kernel_shape := [1; 1; in_dim; out_channels] in
      W <- get_variable kernel_shape tn01 "weight" ;;
      conv_3 <- conv2d out_1 W [1; stride; stride; 1] "VALID" "conv" ;;
      add conv_2 conv_3) ;;
    ret (shortcut', 1)
  else
    shortcut' <- add conv_2 shortcut ;;
    ret (shortcut', stride).

Fixpoint res_group_loop (self_train_flag : tensor) (out_channels group_id : Z)
    (block_nums : list Z) (shortcut : tensor) (stride : Z) : M tensor :=
  match block_nums with
  | [] => ret shortcut
  | block_num :: rest =>
      r <- res_block self_train_flag out_channels group_id block_num shortcut stride ;;
      res_group_loop self_train_flag out_channels group_id rest (fst r) (snd r)
  end.

Definition res_group (self_train_flag : tensor) (input_x : tensor)
    (stride out_channels n_blocks group_id : Z) : M tensor :=
  res_group_loop self_train_flag out_channels group_id (range n_blocks)
                 input_x stride.


Definition __init__ (img_dim n_classes in_channels : Z) (out_channels : list Z)
    (width_mult n_blocks : Z) (learning_rate l2_reg_lambda : Q) : M WideRes22 :=
  print "Initialising placeholders ..." ;;
  input_x <- placeholder float32
               (Some [None; Some img_dim; Some img_dim; Some in_channels])
               "input_x" ;;
  input_y <- placeholder float32 (Some [None; Some n_classes]) "input_y" ;;
  train_flag <- placeholder bool_ None "train_flag" ;;
  out <- with_name_scope Conv0 (
    oc0 <- getitem out_channels 0 ;;
    let kernel_shape := [3; 3; in_channels; oc0] in
    W <- get_variable kernel_shape tn01 "weight" ;;
    conv2d input_x W [1; 1; 1; 1] "SAME" "conv") ;;
  print "Computing Residual Group 1 ..." ;;
  oc0 <- getitem out_channels 0 ;;
  out <- res_group train_flag out 1 (oc0 * width_mult) n_blocks 1 ;;
  print "Computing Residual Group 2 ..." ;;
  oc1 <- getitem out_channels 1 ;;
  out <- res_group train_flag out 2 (oc1 * width_mult) n_blocks 2 ;;
  print "Computing Residual Group 3 ..." ;;
  oc2 <- getitem out_channels 2 ;;
  out <- res_group train_flag out 2 (oc2 * width_mult) n_blocks 3 ;;
  bn <- batch_norm out (9 # 10) true true train_flag true ;;
  out <- relu bn "relu" ;;
  print "Pooling outputs and calculating scores ..." ;;
  out <- avg_pool_2d out 8 [1; 1; 1; 1] "valid" "avg-pool-2d" ;;
  out <- flatten out ;;
  scores <- dense out true n_classes "scores" ;;
  predictions <- argmax scores 1 (Some "predictions") ;;
  loss <- with_name_scope LossScope (
    vars <- trainable_variables ;;
    terms <- for_each l2_loss vars ;;
    l2 <- add_n terms ;;
    losses <- softmax_cross_entropy_with_logits scores input_y ;;
    mean <- reduce_mean losses None ;;
    reg <- scalar_mul l2_reg_lambda l2 ;;
    add mean reg) ;;
  accuracy <- with_name_scope AccuracyScope (
    labels <- argmax input_y 1 None ;;
    correct_predictions <- equal predictions labels ;;
    as_float <- cast correct_predictions "float" ;;
    reduce_mean as_float (Some "accuracy")) ;;
  ret (mkWideRes22 input_x input_y train_flag out scores predictions loss accuracy).

(** ** Running the model on small inputs *)

(** The state before anything was built or printed, a batch of 32 by 32
    images with 3 channels, and a training flag. *)
Definition empty : state := mkState [] [] Root [].

Definition x0 : tensor :=
  Placeholder float32 (Some [None; Some 32; Some 32; Some 3]) "input_x".

Definition flag0 : tensor := Placeholder bool_ None "train_flag".

Example scope_name_first_block : scope_name (BlockConv 1 (0 + 1) 1) = "1-1_conv_1".
Proof. reflexivity. Qed.

Example range_3 : range 3 = [0; 1; 2].
Proof. reflexivity. Qed.

Example range_negative : range (-2) = [].
Proof. reflexivity. Qed.

(** A group of one block adds eleven entries, of two blocks twenty. *)
Example one_block_entries :
  List.length (nodes (snd (res_group flag0 x0 2 16 1 1 empty))) = 11%nat.
Proof. reflexivity. Qed.

Example two_blocks_entries :
  List.length (nodes (snd (res_group flag0 x0 2 16 2 1 empty))) = 20%nat.
Proof. reflexivity. Qed.

(** A tensor of unknown channel count makes the first block raise. *)
Example unknown_channels_raise :
  res_group flag0 flag0 2 16 1 1 empty = (Raise TypeError, empty).
Proof. reflexivity. Qed.

(** A tuple [out_channels] of two entries: the constructor raises when it
    reaches the third group, after four lines were printed. *)
Example short_tuple_raises :
  let r := __init__ 32 10 3 [16; 32] 1 1 (1 # 10) 0 empty in
  fst r = Raise IndexError /\
  stdout (snd r) =
    [ "Initialising placeholders ..."; "Computing Residual Group 1 ...";
      "Computing Residual Group 2 ..."; "Computing Residual Group 3 ..." ].
Proof. split; reflexivity. Qed.

(** ** Vocabulary of the properties

    The shapes of nodes, entries and runs that the theorems speak of. *)



(** [chain Q first x outs]: [outs] are the outputs of consecutive blocks, the
    first fed by [x] and each next one by the output before it; [Q] relates
    the input of a block to its output, and is told whether the block is the
    first of the list. *)
Inductive chain (Q : bool -> tensor -> tensor -> Prop) :
    bool -> tensor -> list tensor -> Prop :=
| chain_nil first x : chain Q first x []
| chain_cons first x t rest :
    Q first x t -> chain Q false t rest -> chain Q first x (t :: rest).

















Section Evaluation.
(** The scalars a graph node evaluates to, with their sum and product; the
    value of a node that is neither a sum, a product nor a constant is given
    by [value_of]. *)
Variables (V : Type) (vadd vmul : V -> V -> V) (of_Q : Q -> V).
Variable value_of : tensor -> V.

End Evaluation.

(** ** Vocabulary of the further properties *)

(** [appends m]: whatever [m] returns or raises, it leaves the entries, the
    trainable variables and the printed lines it found in place and in
    order, adds entries and lines after them, registers exactly the
    variables of the entries it adds, and restores the name scope. *)
Definition appends {A} (m : M A) : Prop :=
  forall st, exists added lines, snd (m st) = say (extend st added) lines.





(** ** Closed forms

    What one run of the loop body, of the loop and of the constructor add to
    the state, as pure functions; the monadic programs are shown to compute
    them.  The properties of the graph are then read off these lists. *)

Lemma extend_nil st :
  extend st [] = st.
Proof.
  destruct st; unfold extend; simpl. now rewrite !app_nil_r.
Qed.

Lemma extend_extend st a b :
  extend (extend st a) b = extend st (a ++ b).
Proof.
  unfold extend; simpl.
  now rewrite map_app, flat_map_app, !app_assoc.
Qed.

Section Block.
Variables (flag : tensor) (oc gid : Z).

Definition bn_of (x : tensor) : tensor := BatchNorm x (9 # 10) true true flag true.
Definition pre_of (x : tensor) : tensor := Relu (bn_of x) "relu".
Definition weight_of (b k kh cin : Z) : tensor :=
  Var (BlockConv gid (b + 1) k) "weight" [kh; kh; cin; oc] tn01.

Definition conv_1_of b x s cin : tensor :=
  Conv2d (pre_of x) (weight_of b 1 3 cin) [1; s; s; 1] "SAME" "conv".
Definition conv_2_of b x s cin : tensor :=
  Conv2d (pre_of (conv_1_of b x s cin)) (weight_of b 2 3 oc) [1; 1; 1; 1] "SAME" "conv".
Definition conv_3_of b x s cin : tensor :=
  Conv2d (pre_of x) (weight_of b 3 1 cin) [1; s; s; 1] "VALID" "conv".

Definition block_result b x s cin : tensor :=
  Add (conv_2_of b x s cin) (if b =? 0 then conv_3_of b x s cin else x).

Definition block_nodes (sc0 : scope) b x s cin : list (scope * tensor) :=
  let s1 := BlockConv gid (b + 1) 1 in
  let s2 := BlockConv gid (b + 1) 2 in
  let s3 := BlockConv gid (b + 1) 3 in
  [ (s1, bn_of x); (s1, pre_of x); (s1, weight_of b 1 3 cin);
    (s1, conv_1_of b x s cin);
    (s2, bn_of (conv_1_of b x s cin)); (s2, pre_of (conv_1_of b x s cin));
    (s2, weight_of b 2 3 oc); (s2, conv_2_of b x s cin) ] ++
  (if b =? 0
   then [ (s3, weight_of b 3 1 cin); (s3, conv_3_of b x s cin);
          (s3, block_result b x s cin) ]
   else [ (sc0, block_result b x s cin) ]).

Lemma res_block_run b x s cin st :
  last_dim x = Some cin ->
  res_block flag oc gid b x s st =
  (Ok (block_result b x s cin, if b =? 0 then 1 else s),
   extend st (block_nodes (name_scope st) b x s cin)).
Proof.
  intros Hd. unfold res_block, np_shape_last, bind at 1. rewrite Hd.
  unfold block_nodes, block_result, extend.
  destruct st as [ns tr sc so]. destruct (b =? 0); cbn;
    repeat rewrite <- app_assoc; reflexivity.
Qed.

Lemma res_block_raises b x s st :
  last_dim x = None ->
  res_block flag oc gid b x s st = (Raise TypeError, st).
Proof.
  intros Hd. unfold res_block, np_shape_last, bind at 1. now rewrite Hd.
Qed.

Lemma last_dim_block_result b x s cin :
  b = 0 \/ last_dim x = Some oc ->
  last_dim (block_result b x s cin) = Some oc.
Proof.
  intros H. unfold block_result. cbn.
  destruct (b =? 0) eqn:E; cbn.
  - now rewrite Z.eqb_refl.
  - destruct H as [H | H]; [ apply Z.eqb_neq in E; contradiction | ].
    rewrite H. cbn. now rewrite Z.eqb_refl.
Qed.

(** The loop over the block numbers [l], from shortcut [x], stride [s]
    and channel count [cin]. *)
Fixpoint loop_result (l : list Z) x s cin : tensor :=
  match l with
  | [] => x
  | b :: rest =>
      loop_result rest (block_result b x s cin) (if b =? 0 then 1 else s) oc
  end.

Fixpoint loop_nodes (sc0 : scope) (l : list Z) x s cin : list (scope * tensor) :=
  match l with
  | [] => []
  | b :: rest =>
      block_nodes sc0 b x s cin ++
      loop_nodes sc0 rest (block_result b x s cin) (if b =? 0 then 1 else s) oc
  end.

Lemma res_group_loop_run l : forall x s cin st,
  last_dim x = Some cin ->
  match l with [] => True | b :: _ => b = 0 \/ cin = oc end ->
  res_group_loop flag oc gid l x s st =
  (Ok (loop_result l x s cin), extend st (loop_nodes (name_scope st) l x s cin)).
Proof.
  induction l as [ | b rest IH]; intros x s cin st Hd Hs; cbn [res_group_loop].
  - unfold ret. cbn. now rewrite extend_nil.
  - unfold bind. rewrite (res_block_run b x s cin st Hd). cbn [fst snd].
    rewrite (IH _ _ oc).
    + cbn [loop_result loop_nodes]. now rewrite extend_extend.
    + apply last_dim_block_result.
      destruct Hs as [H | H]; [ now left | right; now rewrite Hd, H ].
    + destruct rest; [ exact I | now right ].
Qed.
End Block.

(** [range] yields nothing, or block number 0 followed by positive ones. *)
Lemma range_nonpos n :
  n <= 0 -> range n = [].
Proof.
  intros H. unfold range. now replace (Z.to_nat n) with O by lia.
Qed.

Lemma range_pos n :
  0 < n ->
  exists tl, range n = 0 :: tl /\ Forall (fun b => 1 <= b) tl /\
             List.length tl = Nat.pred (Z.to_nat n).
Proof.
  intros H. unfold range.
  destruct (Z.to_nat n) as [ | k] eqn:E; [ lia | ].
  exists (map Z.of_nat (seq 1 k)). cbn. repeat split.
  - apply Forall_forall. intros b Hb. apply in_map_iff in Hb.
    destruct Hb as (i & <- & Hi). apply in_seq in Hi. lia.
  - now rewrite length_map, length_seq.
Qed.



Lemma chain_impl (Q Q' : bool -> tensor -> tensor -> Prop) :
  (forall f x t, Q f x t -> Q' f x t) ->
  forall f x outs, chain Q f x outs -> chain Q' f x outs.
Proof.
  intros H f x outs C. induction C; constructor; auto.
Qed.

Section Group.
Variables (flag : tensor) (oc gid : Z).


Lemma res_group_run x s n cin st :
  last_dim x = Some cin ->
  res_group flag x s oc n gid st =
  (Ok (loop_result flag oc gid (range n) x s cin),
   extend st (loop_nodes flag oc gid (name_scope st) (range n) x s cin)).
Proof.
  intros Hd. unfold res_group. apply res_group_loop_run; [ exact Hd | ].
  destruct (Z_le_gt_dec n 0) as [H | H].
  - now rewrite range_nonpos.
  - destruct (range_pos n) as (tl & -> & _); [ lia | now left ].
Qed.

Lemma res_group_unknown_dim x s n st :
  last_dim x = None ->
  res_group flag x s oc n gid st =
  (if 0 <? n then Raise TypeError else Ok x, st).
Proof.
  intros Hd. unfold res_group. destruct (0 <? n) eqn:E.
  - apply Z.ltb_lt in E. destruct (range_pos n E) as (tl & -> & _).
    cbn [res_group_loop]. unfold bind. now rewrite res_block_raises.
  - apply Z.ltb_ge in E. now rewrite range_nonpos.
Qed.




End Group.






Section Init.
Variables (img_dim n_classes in_channels : Z).
Variables (c0 c1 c2 : Z) (more : list Z).
Variables (width_mult n_blocks : Z) (learning_rate l2_reg_lambda : Q).






















End Init.

(** ** Lemmas on blocks, groups and the constructor *)








































(** ** The residual group *)

(** C9.  With [n_blocks = 0], [res_group] returns its [input_x] argument and
    leaves the state as it found it: no node, no variable, nothing else is
    added, whatever the input tensor, stride, width and group identifier. *)
Theorem res_group_zero_blocks_identity :
  forall (flag input_x : tensor) (stride out_channels group_id : Z) (st : state),
    res_group flag input_x stride out_channels 0 group_id st = (Ok input_x, st).
Proof.
  intros. reflexivity.
Qed.






(** ** The constructor *)

Section Constructor.
Variables (img_dim n_classes in_channels : Z).
Variables (c0 c1 c2 : Z) (more : list Z).
Variables (width_mult n_blocks : Z) (learning_rate l2_reg_lambda : Q).

(** The constructor called with a tuple [out_channels] of at least three
  entries. *)
Local Abbreviation construct :=
(__init__ img_dim n_classes in_channels (c0 :: c1 :: c2 :: more)
          width_mult n_blocks learning_rate l2_reg_lambda).









End Constructor.


(** ** The loss without regularisation *)



(** * Further properties of the constructor and of [res_group] *)

(** ** Tuples [out_channels] that are too short *)



(** ** What a run leaves in place *)

Lemma say_extend_nil st :
  say (extend st []) [] = st.
Proof.
  destruct st. unfold say, extend. cbn. now rewrite !app_nil_r.
Qed.

Lemma say_extend_compose st a l b l' :
  say (extend (say (extend st a) l) b) l' = say (extend st (a ++ b)) (l ++ l').
Proof.
  unfold say, extend. cbn. now rewrite map_app, flat_map_app, !app_assoc.
Qed.

Lemma appends_ret {A} (a : A) :
  appends (ret a).
Proof.
  intros st. exists [], []. cbn. now rewrite say_extend_nil.
Qed.

Lemma appends_raise {A} (e : exn) :
  appends (@raise A e).
Proof.
  intros st. exists [], []. cbn. now rewrite say_extend_nil.
Qed.

Lemma appends_bind {A B} (m : M A) (f : A -> M B) :
  appends m -> (forall a, appends (f a)) -> appends (bind m f).
Proof.
  intros Hm Hf st. unfold bind. destruct (Hm st) as (a1 & l1 & H1).
  destruct (m st) as [[a | e] s1]; cbn in H1; subst s1.
  - destruct (Hf a (say (extend st a1) l1)) as (a2 & l2 & H2).
    exists (a1 ++ a2), (l1 ++ l2). now rewrite H2, say_extend_compose.
  - exists a1, l1. reflexivity.
Qed.

Lemma appends_print line :
  appends (print line).
Proof.
  intros [ns tr sc so]. exists [], [line]. unfold say, extend. cbn.
  now rewrite !app_nil_r.
Qed.

Lemma appends_emit t :
  appends (emit t).
Proof.
  intros [ns tr sc so]. exists [(sc, t)], []. unfold say, extend. cbn.
  now rewrite !app_nil_r.
Qed.

Lemma appends_get_variable shape init name :
  appends (get_variable shape init name).
Proof.
  intros st. apply (appends_emit (Var (name_scope st) name shape init)).
Qed.

Lemma appends_trainable_variables :
  appends trainable_variables.
Proof.
  intros st. exists [], []. cbn. now rewrite say_extend_nil.
Qed.

Lemma appends_with_name_scope {A} sc (body : M A) :
  appends body -> appends (with_name_scope sc body).
Proof.
  intros Hb st. unfold with_name_scope.
  destruct (Hb (mkState (nodes st) (trainable st) sc (stdout st)))
    as (added & lines & H).
  destruct (body _) as [r s']. cbn in H. subst s'.
  exists added, lines. reflexivity.
Qed.

Lemma appends_getitem t i :
  appends (getitem t i).
Proof.
  unfold getitem. destruct (nth_error t i);
    [ apply appends_ret | apply appends_raise ].
Qed.

Lemma appends_np_shape_last t :
  appends (np_shape_last t).
Proof.
  unfold np_shape_last. destruct (last_dim t);
    [ apply appends_ret | apply appends_raise ].
Qed.

Lemma appends_for_each {A B} (f : A -> M B) xs :
  (forall x, appends (f x)) -> appends (for_each f xs).
Proof.
  intros Hf. induction xs as [ | x xs IH]; cbn [for_each].
  - apply appends_ret.
  - apply appends_bind; [ apply Hf | intros y ].
    apply appends_bind; [ exact IH | intros ys; apply appends_ret ].
Qed.

(** Discharges [appends] of a program built from the calls above. *)
Ltac appends_step :=
  lazymatch goal with
  | |- appends (bind _ _) => apply appends_bind; [ | intros ]
  | |- appends (ret _) => apply appends_ret
  | |- appends (raise _) => apply appends_raise
  | |- appends (print _) => apply appends_print
  | |- appends (emit _) => apply appends_emit
  | |- appends (get_variable _ _ _) => apply appends_get_variable
  | |- appends trainable_variables => apply appends_trainable_variables
  | |- appends (getitem _ _) => apply appends_getitem
  | |- appends (np_shape_last _) => apply appends_np_shape_last
  | |- appends (with_name_scope _ _) => apply appends_with_name_scope
  | |- appends (for_each _ _) => apply appends_for_each; intros
  end.

Lemma appends_res_block flag oc gid b x s :
  appends (res_block flag oc gid b x s).
Proof.
  unfold res_block, batch_norm, relu, conv2d, add.
  apply appends_bind; [ apply appends_np_shape_last | intros in_dim ].
  apply appends_bind; [ repeat appends_step | intros [out_1 conv_1] ].
  apply appends_bind; [ repeat appends_step | intros conv_2 ].
  destruct (b =? 0); repeat appends_step.
Qed.

Lemma appends_res_group_loop flag oc gid l : forall x s,
  appends (res_group_loop flag oc gid l x s).
Proof.
  induction l as [ | b rest IH]; intros x s; cbn [res_group_loop].
  - apply appends_ret.
  - apply appends_bind; [ apply appends_res_block | intros r; apply IH ].
Qed.

Lemma appends_res_group flag x s oc n gid :
  appends (res_group flag x s oc n gid).
Proof.
  apply appends_res_group_loop.
Qed.

(** X2.  Whatever its arguments, and whether it returns or raises, the
    constructor only appends: the entries, trainable variables and printed
    lines that were there stay in place and in order, the trainable
    variables it registers are those of the entries it adds, and the name
    scope is the one it found. *)
Theorem constructor_only_appends :
  forall (img_dim n_classes in_channels : Z) (out_channels : list Z)
         (width_mult n_blocks : Z) (learning_rate l2_reg_lambda : Q)
         (st : state),
  exists added lines,
    let st' := snd (__init__ img_dim n_classes in_channels out_channels
                             width_mult n_blocks learning_rate l2_reg_lambda st) in
    nodes st' = nodes st ++ added /\
    trainable st' = trainable st ++ flat_map new_trainable (map snd added) /\
    stdout st' = stdout st ++ lines /\
    name_scope st' = name_scope st.
Proof.
  intros.
  assert (H : appends (__init__ img_dim n_classes in_channels out_channels
                                width_mult n_blocks learning_rate l2_reg_lambda)).
  { unfold __init__, placeholder, batch_norm, relu, conv2d, add, avg_pool_2d,
      flatten, dense, argmax, l2_loss, add_n,
      softmax_cross_entropy_with_logits, reduce_mean, equal, cast, scalar_mul.
    repeat first [ apply appends_res_group | appends_step ]. }
  destruct (H st) as (added & lines & E). exists added, lines.
  cbv zeta. rewrite E. repeat split.
Qed.

(** X3.  Whatever its arguments, and whether it returns or raises,
    [res_group] prints nothing, only appends entries with the variables they
    register, and restores the name scope. *)
Theorem res_group_only_appends_entries :
  forall (flag x : tensor) (stride out_channels n_blocks group_id : Z)
         (st : state),
  exists added,
    let st' := snd (res_group flag x stride out_channels n_blocks group_id st) in
    nodes st' = nodes st ++ added /\
    trainable st' = trainable st ++ flat_map new_trainable (map snd added) /\
    stdout st' = stdout st /\
    name_scope st' = name_scope st.
Proof.
  intros flag x s oc n gid st. destruct (last_dim x) as [cin | ] eqn:Hd.
  - rewrite (res_group_run flag oc gid x s n cin st Hd).
    eexists. cbv zeta. cbn [snd]. repeat split.
  - rewrite (res_group_unknown_dim flag oc gid x s n st Hd).
    exists []. cbv zeta. cbn. now rewrite !app_nil_r.
Qed.

(** ** Edge cases of [res_group] *)

(** X4.  Given a placeholder whose last dimension is not known and at least
    one block, [res_group] raises [TypeError] at [int(np.shape(shortcut)[-1])]
    and leaves the state as it found it. *)
Theorem res_group_unknown_channels_raise :
  forall (flag : tensor) (dt : dtype) (dims : list (option Z)) (name : string)
         (stride out_channels n_blocks group_id : Z) (st : state),
    0 < n_blocks ->
    res_group flag (Placeholder dt (Some (dims ++ [None])) name)
              stride out_channels n_blocks group_id st =
    (Raise TypeError, st).
Proof.
  intros flag dt dims name s oc n gid st Hn.
  rewrite res_group_unknown_dim.
  - now replace (0 <? n) with true by (symmetry; apply Z.ltb_lt; exact Hn).
  - cbn. apply last_last.
Qed.

Lemma res_group_unknown_channels_raise_witness :
  0 < 3 /\
  res_group flag0 (Placeholder float32 (Some ([None; Some 32; Some 32] ++ [None])) "input_x")
            2 16 3 1 empty =
  (Raise TypeError, empty).
Proof.
  split; [ lia | ].
  apply (res_group_unknown_channels_raise flag0 float32 [None; Some 32; Some 32]
           "input_x" 2 16 3 1 empty).
  lia.
Defined.

(** X10.  With [n_blocks] zero or negative, [res_group] returns its input
    and leaves the state as it found it. *)
Theorem res_group_no_blocks_identity :
  forall (flag x : tensor) (stride out_channels n_blocks group_id : Z)
         (st : state),
    n_blocks <= 0 ->
    res_group flag x stride out_channels n_blocks group_id st = (Ok x, st).
Proof.
  intros flag x s oc n gid st Hn. unfold res_group.
  now rewrite range_nonpos.
Qed.

Lemma res_group_no_blocks_identity_witness :
  -2 <= 0 /\ res_group flag0 x0 2 16 (-2) 1 empty = (Ok x0, empty).
Proof.
  split; [ lia | ].
  apply (res_group_no_blocks_identity flag0 x0 2 16 (-2) 1 empty). lia.
Defined.

(** ** Channel counts *)








(** ** Counting what is built *)







Section Counts.
Variables (img_dim n_classes in_channels : Z).
Variables (c0 c1 c2 : Z) (more : list Z).
Variables (width_mult n_blocks : Z) (learning_rate l2_reg_lambda : Q).


End Counts.

(** ** The constructor: channel counts, the unused argument, no blocks *)

Section Shapes.
Variables (img_dim n_classes in_channels : Z).
Variables (c0 c1 c2 : Z) (more : list Z).
Variables (width_mult n_blocks : Z) (learning_rate l2_reg_lambda : Q).


(** X11.  The argument [learning_rate] is never used: result and state of
    the constructor are the same for any two values of it, whatever the
    other arguments, also when the constructor raises. *)
Theorem constructor_ignores_learning_rate :
  forall (out_channels : list Z) (learning_rate' : Q) (st : state),
    __init__ img_dim n_classes in_channels out_channels width_mult n_blocks
             learning_rate l2_reg_lambda st =
    __init__ img_dim n_classes in_channels out_channels width_mult n_blocks
             learning_rate' l2_reg_lambda st.
Proof.
  intros. reflexivity.
Qed.

End Shapes.

